(** * VectorCore/Website: the account model and the remember-me flow

    A shallow embedding of [src/App/Models/Account.js] and of the session
    configuration of [src/Server.js], with the library calls they make
    (bcrypt, express' [res.cookie], mongoose's [updateOne]) modelled at the
    level of their documented contracts. *)

From Stdlib Require Import ZArith Ascii String List Lia.
From stdpp Require Import base option list gmap strings.

#[local] Set Warnings "-register-all".

(** ** JavaScript values, exceptions and effects *)

Module Js.

(** The values that can sit in a query's update document. *)
Inductive Value : Type :=
| VUndefined
| VNull
| VBoolean (b : bool)
| VNumber (n : Z)
| VString (s : string)
| VObject (props : gmap string Value).

Inductive Exception : Type :=
| TypeError (message : string)
| Error (message : string).

Inductive Result (A : Type) : Type :=
| Ok (a : A)
| Throw (e : Exception).

Arguments Ok {A} a.
Arguments Throw {A} e.

(** [v.k] : reading a property of [undefined] or [null] throws; a missing
    property of an object reads as [undefined]; primitives have no own
    properties of the names used here. *)
Definition get (v : Value) (k : string) : Result Value :=
  match v with
  | VUndefined => Throw (TypeError ("Cannot read property '" +:+ k +:+ "' of undefined"))
  | VNull => Throw (TypeError ("Cannot read property '" +:+ k +:+ "' of null"))
  | VObject props => Ok (default VUndefined (props !! k))
  | _ => Ok VUndefined
  end.

(** [v.k = x] (sloppy mode): assigning to a property of [undefined] or
    [null] throws, on a primitive it is silently dropped. *)
Definition set (v : Value) (k : string) (x : Value) : Result Value :=
  match v with
  | VUndefined => Throw (TypeError ("Cannot set property '" +:+ k +:+ "' of undefined"))
  | VNull => Throw (TypeError ("Cannot set property '" +:+ k +:+ "' of null"))
  | VObject props => Ok (VObject (<[k := x]> props))
  | _ => Ok v
  end.

(** Statements run against a state [S]; a throw keeps the effects made
    before it. *)
Definition M (S A : Type) : Type := S -> Result A * S.

Definition ret {S A} (a : A) : M S A := fun s => (Ok a, s).

Definition bind {S A B} (m : M S A) (k : A -> M S B) : M S B :=
  fun s => match m s with
           | (Ok a, s') => k a s'
           | (Throw e, s') => (Throw e, s')
           end.

Definition lift {S A} (r : Result A) : M S A := fun s => (r, s).

Definition gets {S A} (f : S -> A) : M S A := fun s => (Ok (f s), s).

Definition modify {S} (f : S -> S) : M S unit := fun s => (Ok tt, f s).

End Js.

Import Js.

Declare Scope js_scope.
Delimit Scope js_scope with js.
Notation "x <- m ;; k" := (bind m (fun x => k))
  (at level 100, m at next level, right associativity) : js_scope.
Notation "m ;;; k" := (bind m (fun _ => k))
  (at level 100, right associativity) : js_scope.

Local Open Scope js_scope.

(** ** The data model *)

(** Mongo object identifiers. *)
Abbreviation ObjectId := N.

(** The [Account] schema of [App/Models/Account.js]: the declared paths,
    with [Remember] defaulting to [null]. *)
Record Account : Type := {
  _id : ObjectId;
  Purchase : list ObjectId;
  Roles : list ObjectId;
  Name : string;
  Admin : bool;
  Email : string;
  Password : string;
  Remember : option string
}.

Definition set_Password (v : string) (a : Account) : Account :=
  {| _id := _id a; Purchase := Purchase a; Roles := Roles a; Name := Name a;
     Admin := Admin a; Email := Email a; Password := v; Remember := Remember a |}.

Definition set_Remember (v : option string) (a : Account) : Account :=
  {| _id := _id a; Purchase := Purchase a; Roles := Roles a; Name := Name a;
     Admin := Admin a; Email := Email a; Password := Password a; Remember := v |}.

(** What the process shares between requests: the random source (as the
    stream of its future outputs and the number already drawn), the accounts
    collection, the outcomes of the coming writes to it ([Some e]: the write
    fails with [e]; none left: the store is healthy) and the central log. *)
Record World : Type := {
  Entropy : nat -> nat;
  Drawn : nat;
  Accounts : gmap N Account;
  Faults : list (option string);
  Log : list (string * string)
}.

Definition set_Drawn (n : nat) (w : World) : World :=
  {| Entropy := Entropy w; Drawn := n; Accounts := Accounts w;
     Faults := Faults w; Log := Log w |}.

Definition set_Accounts (m : gmap N Account) (w : World) : World :=
  {| Entropy := Entropy w; Drawn := Drawn w; Accounts := m;
     Faults := Faults w; Log := Log w |}.

Definition set_Faults (f : list (option string)) (w : World) : World :=
  {| Entropy := Entropy w; Drawn := Drawn w; Accounts := Accounts w;
     Faults := f; Log := Log w |}.

Definition set_Log (l : list (string * string)) (w : World) : World :=
  {| Entropy := Entropy w; Drawn := Drawn w; Accounts := Accounts w;
     Faults := Faults w; Log := l |}.

(** [n] characters of [alphabet], chosen by the next [n] outputs of the
    random source. *)
Definition pick (alphabet : list ascii) (r : nat) : ascii :=
  nth (r mod length alphabet) alphabet "000"%char.

Fixpoint draw (alphabet : list ascii) (rnd : nat -> nat) (from n : nat) : string :=
  match n with
  | O => EmptyString
  | S n' => String (pick alphabet (rnd from)) (draw alphabet rnd (S from) n')
  end.

Definition random_chars (alphabet : list ascii) (n : nat) : M World string :=
  fun w => (Ok (draw alphabet (Entropy w) (Drawn w) n), set_Drawn (Drawn w + n) w).

(** ** bcrypt (npm package)

    Not part of the repository. Its hash is [salt ++ digest], where the salt
    string carries the version, the cost and 128 random bits, and the digest
    is the expensive-key-schedule Blowfish of the key under that salt; the
    key is the NUL-terminated password cut to Blowfish's 72 bytes (the
    package's README: only the first 72 bytes of a string are used, any extra
    bytes are ignored when matching passwords). The cipher itself is the
    parameter [Digest]. *)

Module bcrypt.

Definition radix64 : list ascii :=
  list_ascii_of_string "./ABCDEFGHIJKLMNOPQRSTUVWXYZabcdefghijklmnopqrstuvwxyz0123456789".

Definition digit (d : nat) : ascii := ascii_of_nat (48 + d).

(** The cost, clamped to 4..31 and printed on two digits. *)
Definition cost (rounds : nat) : string :=
  let r := Nat.min 31 (Nat.max 4 rounds) in
  String (digit (r / 10)) (String (digit (r mod 10)) EmptyString).

(** [genSaltSync(rounds)]: ["$2b$" cost "$"] and the random bits as 22
    radix-64 digits, 29 characters in all. *)
Definition genSaltSync (rounds : nat) : M World string :=
  r <- random_chars radix64 22;;
  ret ("$2b$" +:+ cost rounds +:+ "$" +:+ r).

(** The salt [genSaltSync(rounds)] yields in [w]. *)
Definition next_salt (rounds : nat) (w : World) : string :=
  "$2b$" +:+ cost rounds +:+ "$" +:+ draw radix64 (Entropy w) (Drawn w) 22.

Definition SALT_LENGTH : nat := 29.
Definition KEY_MAX : nat := 72.

Definition key (data : string) : string :=
  substring 0 KEY_MAX (data +:+ String "000"%char EmptyString).

Section Bindings.

Variable Digest : string -> string -> string.

Definition encrypt_sync (data salt : string) : string :=
  salt +:+ Digest salt (key data).

(** Hash the candidate under the salt the stored hash starts with, and
    compare the two strings. *)
Definition compare_sync (data hash : string) : bool :=
  String.eqb (encrypt_sync data (substring 0 SALT_LENGTH hash)) hash.

(** The JavaScript entry points check their arguments first. *)
Definition hashSync (data : Value) (salt : string) : Result string :=
  match data with
  | VUndefined | VNull => Throw (Error "data and salt arguments required")
  | VString s => Ok (encrypt_sync s salt)
  | _ => Throw (Error "data must be a string and salt must either be a salt string or a number of rounds")
  end.

Definition compareSync (data hash : Value) : Result bool :=
  match data, hash with
  | (VUndefined | VNull), _ | _, (VUndefined | VNull) =>
      Throw (Error "data and hash arguments required")
  | VString d, VString h => Ok (compare_sync d h)
  | _, _ => Throw (Error "data and hash must be strings")
  end.

End Bindings.

End bcrypt.

(** ** Helpers of the application that [Account.js] calls *)

Module Unique.

(** Modelled from the spec: [App/Helpers/Unique] is not among the sources.
    Section 4.2 has the token be "a fresh random token of fixed length from
    an unambiguous character set": [String(n)] draws [n] characters of the
    helper's alphabet from the random source. *)
Definition String (Alphabet : list ascii) (n : nat) : M World string :=
  random_chars Alphabet n.

End Unique.

Module Logger.

(** Modelled from the spec: [App/Helpers/Logger] is not among the sources.
    Sections 4.2 and 7 have faults "logged centrally": [Analyze(tag, error)]
    appends the pair to the log and returns. *)
Definition Analyze (tag error : string) : M World unit :=
  modify (fun w => set_Log (Log w ++ [(tag, error)]) w).

End Logger.

(** ** express: the response's cookies *)

Record CookieOptions : Type := {
  maxAge : option Z;
  httpOnly : bool;
  signed : bool
}.

(** A response, as far as [SetRemember] touches it: the [Set-Cookie]
    headers queued on it, oldest first. *)
Record ServerResponse : Type := {
  cookies : list (string * string * CookieOptions)
}.

(** [res.cookie(name, value, options)] queues one more header. *)
Definition cookie (name value : string) (options : CookieOptions) (res : ServerResponse) : ServerResponse :=
  {| cookies := cookies res ++ [(name, value, options)] |}.

(** ** mongoose: [document.updateOne(changes, callback)]

    The write goes to the stored record with the document's [_id] and leaves
    the document in memory as it is; the callback receives the store's
    error, if any. The schema's [timestamps] option has mongoose stamp
    [updatedAt] along with the change; the [Account] record holds the
    paths the schema declares, and the stamps are not among them. *)
Definition updateOne (this : Account) (changes : Account -> Account)
    (callback : option string -> M World unit) : M World unit :=
  fun w =>
    match Faults w with
    | Some e :: rest => callback (Some e) (set_Faults rest w)
    | _ => callback None
             (set_Accounts (alter changes (_id this) (Accounts w)) (set_Faults (tail (Faults w)) w))
    end.

(** Whether an update document has an entry at [$set.Password]. *)
Definition has_set_Password (update : Value) : bool :=
  match update with
  | VObject u =>
      match u !! "$set" with
      | Some (VObject s) => bool_decide (is_Some (s !! "Password"))
      | _ => false
      end
  | _ => false
  end.

(** ** [App/Models/Account.js] *)

Section AccountModel.

Variable Digest : string -> string -> string.
Variable Alphabet : list ascii.

(** [Account.pre('save', ...)], lines 26-30. *)
Definition pre_save (this : Account) : M World Account :=
  salt <- bcrypt.genSaltSync 15;;
  hash <- lift (bcrypt.hashSync Digest (VString (Password this)) salt);;
  ret (set_Password hash this).

(** [Account.pre('findOneAndUpdate', ...)], lines 32-36, on the query's
    update document: the value of [this.getUpdate()], returned as the hook
    leaves it. The argument of [hashSync] is read before the salt is drawn. *)
Definition pre_findOneAndUpdate (update : Value) : M World Value :=
  target <- lift (get update "$set");;
  given <- lift (get target "Password");;
  salt <- bcrypt.genSaltSync 15;;
  hash <- lift (bcrypt.hashSync Digest given salt);;
  target' <- lift (set target "Password" (VString hash));;
  lift (set update "$set" target').

(** [ComparePassword], lines 38-41. *)
Definition ComparePassword (this : Account) (Given : Value) : Result bool :=
  bcrypt.compareSync Digest Given (VString (Password this)).

(** [SetRemember], lines 43-54; the response is returned as the call
    leaves it. *)
Definition SetRemember (this : Account) (Response : ServerResponse) : M World ServerResponse :=
  Token <- Unique.String Alphabet 30;;
  let Response := cookie "Remember" Token
    {| maxAge := Some (1000 * 60 * 60 * 24 * 30)%Z; httpOnly := true; signed := true |}
    Response in
  updateOne this (set_Remember (Some Token))
    (fun Error => match Error with
                  | Some e => Logger.Analyze "DBError" e
                  | None => ret tt
                  end);;;
  ret Response.

(** [IsVip], lines 56-59. *)
Definition IsVip (this : Account) : bool := true.

(** The token the next call of [SetRemember] issues in [w]. *)
Definition next_token (w : World) : string :=
  draw Alphabet (Entropy w) (Drawn w) 30.

(** The options [SetRemember] gives the cookie. *)
Definition Remember_options : CookieOptions :=
  {| maxAge := Some 2592000000%Z; httpOnly := true; signed := true |}.

End AccountModel.

(** [indexOf] on one of the document's arrays of references: mongoose
    compares identifiers by value; the result is the position of the first
    occurrence, or -1. *)
Fixpoint indexOf_from (from : Z) (x : ObjectId) (l : list ObjectId) : Z :=
  match l with
  | [] => (-1)%Z
  | y :: l' => if N.eqb x y then from else indexOf_from (from + 1)%Z x l'
  end.

Definition indexOf (x : ObjectId) (l : list ObjectId) : Z := indexOf_from 0%Z x l.

(** [IsPurchased], lines 61-64. *)
Definition IsPurchased (this : Account) (ID : ObjectId) : bool :=
  negb (indexOf ID (Purchase this) =? -1)%Z.

(** [HasRole], lines 66-74; [Wanted] is the method's argument [Roles]. *)
Definition HasRole (this : Account) (Wanted : list ObjectId) : bool :=
  let Result := List.filter (fun Role => (indexOf Role (Roles this) >? -1)%Z) Wanted in
  negb (Nat.eqb (length Result) 0).

(** ** The remember-me middleware *)

(** What cookie-parser leaves under [signedCookies.Remember]: nothing when
    the cookie is absent, a mark when its signature does not verify, its
    value otherwise. *)
Inductive SignedCookie : Type :=
| Absent
| Forged
| Signed (value : string).

(** A request, as far as the middleware reads it: the account of the active
    session, if there is one, and the remember cookie. *)
Record IncomingMessage : Type := {
  user : option ObjectId;
  signedCookies_Remember : SignedCookie
}.

Module Remember.

(** The stored account whose token equals [token], if there is one, with
    the identifier it is stored under. *)
Definition findOne (token : string) (w : World) : option (ObjectId * Account) :=
  List.find (fun entry => bool_decide (Remember (snd entry) = Some token))
            (map_to_list (Accounts w)).

Definition login (account : ObjectId * Account) (Request : IncomingMessage) : IncomingMessage :=
  {| user := Some (fst account);
     signedCookies_Remember := signedCookies_Remember Request |}.

(** Modelled from the spec: [App/Http/Middleware/Remember] is not among the
    sources. Section 4.3: "on a request lacking an active session but
    carrying a valid signed remember cookie, look up the account whose
    stored token equals the cookie value; if found, establish a session for
    that account as if freshly authenticated; if not found or signature
    invalid, treat the request as anonymous." The request is returned as it
    goes on to the next middleware. *)
Definition Handle (Request : IncomingMessage) : M World IncomingMessage :=
  match user Request, signedCookies_Remember Request with
  | None, Signed token =>
      found <- gets (findOne token);;
      match found with
      | Some account => ret (login account Request)
      | None => ret Request
      end
  | _, _ => ret Request
  end.

End Remember.

(** ** [Server.js]: the session configuration, lines 94-102 *)

Module Server.

Record CookieConfig : Type := {
  expires : Z
}.

Record SessionOptions : Type := {
  name : option string;
  secret : option string;
  resave : bool;
  saveUninitialized : bool;
  cookie : CookieConfig
}.

(** The options object handed to [session(...)]. It is built once, when
    [Server.js] runs: [now] is what [Date.now()] returns then, in
    milliseconds, and [env] is [process.env]. *)
Definition session_options (env : gmap string string) (now : Z) : SessionOptions :=
  {| name := env !! "SESSION_NAME";
     secret := env !! "SESSION_SECRET_KEY";
     resave := true;
     saveUninitialized := true;
     cookie := {| expires := now + 1000 * 60 * 60 * 6 |} |}.

(** express-session gives every session it creates a cookie built from the
    configured [cookie] options: a session created at [created] expires at
    the configured instant, whatever [created] is. *)
Definition session_cookie_expires (options : SessionOptions) (created : Z) : Z :=
  expires (cookie options).

(** How long a session cookie created at [created] lasts. *)
Definition session_cookie_lifetime (options : SessionOptions) (created : Z) : Z :=
  session_cookie_expires options created - created.

Definition SIX_HOURS : Z := 21600000.

(** [toLowerCase], on the bytes of the string: the letters A to Z are
    lowered and every other byte is kept, which is what the comparisons
    with ['true'] below depend on. *)
Definition lower (c : ascii) : ascii :=
  let n := nat_of_ascii c in
  if (65 <=? n)%nat && (n <=? 90)%nat then ascii_of_nat (n + 32) else c.

Fixpoint toLowerCase (s : string) : string :=
  match s with
  | EmptyString => EmptyString
  | String c s' => String (lower c) (toLowerCase s')
  end.

(** [process.env[k].toLowerCase() === 'true']: an unset variable is
    [undefined], and calling a method on it throws. *)
Definition flag (env : gmap string string) (k : string) : Result bool :=
  match env !! k with
  | Some v => Ok (String.eqb (toLowerCase v) "true")
  | None => Throw (TypeError "Cannot read property 'toLowerCase' of undefined")
  end.

(** [${process.env[k]}] inside a template literal: an unset variable prints
    as the text undefined. *)
Definition interpolate (env : gmap string string) (k : string) : string :=
  default "undefined" (env !! k).

(** The argument of [mongoose.set('debug', ...)], line 43. *)
Definition debug (env : gmap string string) : Result bool := flag env "Debug".

(** The connection string handed to [mongoose.connect], line 46. *)
Definition connection_uri (env : gmap string string) : Result string :=
  match flag env "DATABASE_USE_CREDENTIALS" with
  | Ok use =>
      Ok ("mongodb://"
          +:+ (if use
               then interpolate env "DATABASE_USERNAME" +:+ ":"
                    +:+ interpolate env "DATABASE_PASSWORD" +:+ "@"
               else "")
          +:+ interpolate env "DATABASE_HOST" +:+ ":"
          +:+ interpolate env "DATABASE_PORT" +:+ "/"
          +:+ interpolate env "DATABASE_NAME")
  | Throw e => Throw e
  end.

End Server.

(** ** Sample instances, for the examples below *)

(** A stand-in cipher that never collides: the digest is the key. *)
Definition sample_Digest (salt key : string) : string := key.

Definition sample_Alphabet : list ascii :=
  list_ascii_of_string "ABCDEFGHJKLMNPQRSTUVWXYZabcdefghijkmnopqrstuvwxyz23456789".

Definition sample_Account : Account :=
  {| _id := 7%N; Purchase := []; Roles := []; Name := "Ada"; Admin := false;
     Email := "ada@example.org"; Password := "Secret1"; Remember := None |}.

(** The same account as the store holds it, its password hashed. *)
Definition sample_Stored : Account :=
  set_Password (bcrypt.encrypt_sync sample_Digest "Secret1" "$2b$15$N9qo8uLOickgx2ZMRZoMye")
    sample_Account.

Definition sample_World : World :=
  {| Entropy := fun n => (7 * n + 3)%nat; Drawn := 0;
     Accounts := {[ 7%N := sample_Stored ]}; Faults := []; Log := [] |}.

Definition sample_Response : ServerResponse := {| cookies := [] |}.

(** Seventy-two and seventy-three times the letter a. *)
Definition a72 : string := string_of_list_ascii (repeat "a"%char 72).
Definition a73 : string := string_of_list_ascii (repeat "a"%char 73).

(** * Properties *)

(** ** Strings *)

Lemma length_append (s t : string) :
  String.length (s +:+ t) = (String.length s + String.length t)%nat.
Proof. induction s as [|c s IH]; simpl; [done|]. by rewrite IH. Qed.

Lemma substring_0_append (s t : string) :
  substring 0 (String.length s) (s +:+ t) = s.
Proof.
  induction s as [|c s IH]; simpl.
  - by destruct t.
  - by rewrite IH.
Qed.

Lemma eqb_append (s t u : string) :
  String.eqb (s +:+ t) (s +:+ u) = bool_decide (t = u).
Proof.
  case_bool_decide as H.
  - subst. apply String.eqb_refl.
  - apply String.eqb_neq. intros E. by apply (inj (String.app s)) in E.
Qed.

Lemma length_draw alphabet rnd from n :
  String.length (draw alphabet rnd from n) = n.
Proof.
  revert from. induction n as [|n IH]; intros from; simpl; [done|].
  by rewrite IH.
Qed.

(** ** bcrypt *)

Lemma genSaltSync_run rounds w :
  bcrypt.genSaltSync rounds w = (Ok (bcrypt.next_salt rounds w), set_Drawn (Drawn w + 22) w).
Proof. reflexivity. Qed.

Lemma length_next_salt rounds w :
  String.length (bcrypt.next_salt rounds w) = bcrypt.SALT_LENGTH.
Proof.
  unfold bcrypt.next_salt. rewrite !length_append, length_draw. reflexivity.
Qed.

Lemma key_a72_a73 : bcrypt.key a72 = bcrypt.key a73.
Proof. vm_compute. reflexivity. Qed.

Section BcryptFacts.

Variable Digest : string -> string -> string.

(** Comparing against a hash made under a well-formed salt comes down to
    comparing the two digests under that salt. *)
Lemma compare_sync_encrypt_sync (salt data given : string) :
  String.length salt = bcrypt.SALT_LENGTH ->
  bcrypt.compare_sync Digest given (bcrypt.encrypt_sync Digest data salt)
  = bool_decide (Digest salt (bcrypt.key given) = Digest salt (bcrypt.key data)).
Proof.
  intros Hlen. unfold bcrypt.compare_sync.
  replace (substring 0 bcrypt.SALT_LENGTH (bcrypt.encrypt_sync Digest data salt)) with salt.
  - unfold bcrypt.encrypt_sync. apply eqb_append.
  - unfold bcrypt.encrypt_sync. rewrite <- Hlen. symmetry. apply substring_0_append.
Qed.

Lemma pre_save_run (this : Account) (w : World) :
  pre_save Digest this w
  = (Ok (set_Password (bcrypt.encrypt_sync Digest (Password this) (bcrypt.next_salt 15 w)) this),
     set_Drawn (Drawn w + 22) w).
Proof. reflexivity. Qed.

Lemma ComparePassword_hashed (this : Account) (data given salt : string) :
  String.length salt = bcrypt.SALT_LENGTH ->
  ComparePassword Digest (set_Password (bcrypt.encrypt_sync Digest data salt) this) (VString given)
  = Ok (bool_decide (Digest salt (bcrypt.key given) = Digest salt (bcrypt.key data))).
Proof.
  intros Hlen. unfold ComparePassword. simpl.
  by rewrite compare_sync_encrypt_sync.
Qed.

End BcryptFacts.

(** ** Passwords *)

(** C1, as amended. For every account with plaintext password P, the save
    hook returns, and on the document it leaves [ComparePassword(P)] is
    true; [ComparePassword(P')] is false for every P' whose bcrypt digest
    under the stored salt differs from that of P, and true for every P'
    with the same key as P, that is the same first 72 bytes of the
    NUL-terminated password. *)
Theorem ComparePassword_after_save (Digest : string -> string -> string)
    (this : Account) (w : World) :
  exists doc w',
    pre_save Digest this w = (Ok doc, w') /\
    ComparePassword Digest doc (VString (Password this)) = Ok true /\
    (forall P', Digest (bcrypt.next_salt 15 w) (bcrypt.key P')
                <> Digest (bcrypt.next_salt 15 w) (bcrypt.key (Password this)) ->
                ComparePassword Digest doc (VString P') = Ok false) /\
    (forall P', bcrypt.key P' = bcrypt.key (Password this) ->
                ComparePassword Digest doc (VString P') = Ok true).
Proof.
  eexists _, _. split; [apply pre_save_run|].
  pose proof (length_next_salt 15 w) as Hlen.
  split; [|split].
  - rewrite ComparePassword_hashed by done. by rewrite bool_decide_eq_true_2.
  - intros P' Hne. rewrite ComparePassword_hashed by done.
    by rewrite bool_decide_eq_false_2.
  - intros P' Hkey. rewrite ComparePassword_hashed by done.
    rewrite bool_decide_eq_true_2; [done|]. by rewrite Hkey.
Qed.

(** The spec's example, under the sample cipher: the hash of "Secret1"
    accepts "Secret1" and rejects "wrong". *)
Lemma ComparePassword_after_save_witness :
  exists doc w',
    pre_save sample_Digest sample_Account sample_World = (Ok doc, w') /\
    ComparePassword sample_Digest doc (VString "Secret1") = Ok true /\
    ComparePassword sample_Digest doc (VString "wrong") = Ok false.
Proof.
  destruct (ComparePassword_after_save sample_Digest sample_Account sample_World)
    as (doc & w' & Hrun & Hsame & Hother & _).
  exists doc, w'. split; [exact Hrun|]. split; [exact Hsame|].
  apply Hother. vm_compute. discriminate.
Defined.

(** C1, as stated, fails: whatever the cipher and the salt, the hash of
    seventy-two a's also accepts seventy-three a's. *)
Lemma ComparePassword_accepts_beyond_72_bytes :
  a72 <> a73 /\
  forall (Digest : string -> string -> string) (this : Account) (w : World),
    exists doc w',
      pre_save Digest (set_Password a72 this) w = (Ok doc, w') /\
      ComparePassword Digest doc (VString a73) = Ok true.
Proof.
  split; [vm_compute; discriminate|].
  intros Digest this w.
  eexists _, _. split; [apply pre_save_run|].
  rewrite ComparePassword_hashed by apply length_next_salt.
  rewrite bool_decide_eq_true_2; [done|].
  simpl. by rewrite key_a72_a73.
Qed.

(** C8. The save hook hashes whatever the Password field holds, on every
    save: saving the saved document again stores the hash of the first
    hash, and, short of a bcrypt collision between the plaintext and its
    own hash under the second salt, [ComparePassword] then rejects the
    original plaintext. *)
Theorem pre_save_twice_hashes_the_hash (Digest : string -> string -> string)
    (this : Account) (w : World) :
  let first := bcrypt.encrypt_sync Digest (Password this) (bcrypt.next_salt 15 w) in
  let w1 := set_Drawn (Drawn w + 22) w in
  Digest (bcrypt.next_salt 15 w1) (bcrypt.key (Password this))
    <> Digest (bcrypt.next_salt 15 w1) (bcrypt.key first) ->
  exists doc1 doc2 w2,
    pre_save Digest this w = (Ok doc1, w1) /\
    pre_save Digest doc1 w1 = (Ok doc2, w2) /\
    Password doc1 = first /\
    Password doc2 = bcrypt.encrypt_sync Digest first (bcrypt.next_salt 15 w1) /\
    ComparePassword Digest doc2 (VString (Password this)) = Ok false.
Proof.
  intros first w1 Hne.
  eexists _, _, _. split; [apply pre_save_run|]. split; [apply pre_save_run|].
  split; [reflexivity|]. split; [reflexivity|].
  simpl Password at 1.
  rewrite ComparePassword_hashed by apply length_next_salt.
  by rewrite bool_decide_eq_false_2.
Qed.

Lemma pre_save_twice_hashes_the_hash_witness :
  let first := bcrypt.encrypt_sync sample_Digest "Secret1" (bcrypt.next_salt 15 sample_World) in
  let w1 := set_Drawn 22 sample_World in
  exists doc1 doc2 w2,
    pre_save sample_Digest sample_Account sample_World = (Ok doc1, w1) /\
    pre_save sample_Digest doc1 w1 = (Ok doc2, w2) /\
    Password doc1 = first /\
    Password doc2 = bcrypt.encrypt_sync sample_Digest first (bcrypt.next_salt 15 w1) /\
    ComparePassword sample_Digest doc2 (VString "Secret1") = Ok false.
Proof.
  apply (pre_save_twice_hashes_the_hash sample_Digest sample_Account sample_World).
  vm_compute. discriminate.
Defined.

(** The update hook, on an update that sets a string password: the entry
    is replaced by its hash and nothing else changes. *)
Lemma pre_findOneAndUpdate_run (Digest : string -> string -> string)
    (other rest : gmap string Value) (P : string) (w : World) :
  pre_findOneAndUpdate Digest
    (VObject (<["$set" := VObject (<["Password" := VString P]> rest)]> other)) w
  = (Ok (VObject (<["$set" := VObject (<["Password" :=
           VString (bcrypt.encrypt_sync Digest P (bcrypt.next_salt 15 w))]> rest)]> other)),
     set_Drawn (Drawn w + 22) w).
Proof.
  unfold pre_findOneAndUpdate, bind, lift, get. simpl.
  rewrite lookup_insert_eq. simpl. rewrite lookup_insert_eq. simpl.
  by rewrite !insert_insert_eq.
Qed.

Lemma hash_equal_to_plaintext (Digest : string -> string -> string) (P salt : string) :
  String.length salt = bcrypt.SALT_LENGTH ->
  bcrypt.encrypt_sync Digest P salt = P ->
  substring 0 29 P = salt.
Proof.
  intros Hlen Heq. rewrite <- Heq at 1. unfold bcrypt.encrypt_sync.
  change 29%nat with bcrypt.SALT_LENGTH. rewrite <- Hlen. apply substring_0_append.
Qed.

(** C4. With [salt] the 29-character salt drawn for the call: the save
    hook leaves in the document's Password field the bcrypt hash
    [salt ++ digest] of the plaintext it found there, and the update hook
    leaves that hash of the new password under [$set.Password]; what is
    stored can equal the plaintext only if the plaintext itself begins
    with the salt just drawn; and [ComparePassword] on the saved document
    compares the digests of the candidate and of the plaintext under the
    stored salt, not the plaintexts. *)
Theorem Password_is_stored_hashed (Digest : string -> string -> string)
    (this : Account) (other rest : gmap string Value) (P : string) (w : World) :
  let salt := bcrypt.next_salt 15 w in
  String.length salt = 29%nat /\
  (exists doc w',
     pre_save Digest this w = (Ok doc, w') /\
     Password doc = salt +:+ Digest salt (bcrypt.key (Password this)) /\
     (Password doc = Password this -> substring 0 29 (Password this) = salt) /\
     forall Given,
       ComparePassword Digest doc (VString Given)
       = Ok (bool_decide (Digest salt (bcrypt.key Given)
                          = Digest salt (bcrypt.key (Password this))))) /\
  (exists update' w' set',
     pre_findOneAndUpdate Digest
       (VObject (<["$set" := VObject (<["Password" := VString P]> rest)]> other)) w
     = (Ok update', w') /\
     get update' "$set" = Ok set' /\
     get set' "Password" = Ok (VString (salt +:+ Digest salt (bcrypt.key P))) /\
     (get set' "Password" = Ok (VString P) -> substring 0 29 P = salt)).
Proof.
  intros salt. pose proof (length_next_salt 15 w) as Hlen.
  split; [exact Hlen|]. split.
  - eexists _, _. split; [apply pre_save_run|]. split; [reflexivity|]. split.
    + simpl. intros Heq. by apply (hash_equal_to_plaintext Digest).
    + intros Given. by apply ComparePassword_hashed.
  - eexists _, _, _. split; [apply pre_findOneAndUpdate_run|].
    split; [simpl; by rewrite lookup_insert_eq|].
    split; [simpl; by rewrite lookup_insert_eq|].
    simpl. rewrite lookup_insert_eq. simpl. intros [= Heq].
    by apply (hash_equal_to_plaintext Digest).
Qed.

(** On the sample account: what is stored for "Secret1" is the salt
    followed by the digest, and is not "Secret1". *)
Lemma Password_is_stored_hashed_witness :
  exists doc w',
    pre_save sample_Digest sample_Account sample_World = (Ok doc, w') /\
    Password doc
    = "$2b$15$BIPWdkry5AHOVcjqx4/GNU" +:+ sample_Digest "$2b$15$BIPWdkry5AHOVcjqx4/GNU"
                                          (bcrypt.key "Secret1") /\
    Password doc <> "Secret1" /\
    ComparePassword sample_Digest doc (VString "Secret1") = Ok true /\
    ComparePassword sample_Digest doc (VString "secret1") = Ok false.
Proof.
  destruct (Password_is_stored_hashed sample_Digest sample_Account ∅ ∅ "" sample_World)
    as (_ & (doc & w' & Hrun & Hhash & Hplain & Hcompare) & _).
  exists doc, w'. split; [exact Hrun|]. split; [exact Hhash|]. split.
  - intros Heq. specialize (Hplain Heq). vm_compute in Hplain. discriminate.
  - split; rewrite Hcompare; vm_compute; reflexivity.
Defined.

(** C9. The update hook reads [$set.Password] whatever the update is: on
    an update without that entry it throws, so an update the hook lets
    through has the entry. Without [$set] the throw is the TypeError of
    reading a property of [undefined]; with [$set] but no [Password] in it,
    [undefined] reaches [hashSync], which refuses it. *)
Theorem pre_findOneAndUpdate_needs_Password (Digest : string -> string -> string)
    (update : Value) (w : World) :
  has_set_Password update = false ->
  exists e w',
    pre_findOneAndUpdate Digest update w = (Throw e, w') /\
    (forall u, update = VObject u -> u !! "$set" = None ->
       e = TypeError "Cannot read property 'Password' of undefined") /\
    (forall u s, update = VObject u -> u !! "$set" = Some (VObject s) ->
       e = Error "data and salt arguments required").
Proof.
  intros Hlacks. unfold pre_findOneAndUpdate, bind, lift.
  destruct update as [| | | | |u]; simpl;
    try (eexists _, _; split; [reflexivity|split; intros; discriminate]).
  simpl in Hlacks.
  destruct (u !! "$set") as [[| | | | |s]|] eqn:Hset; simpl;
    try (eexists _, _; split; [reflexivity|split; intros; simplify_eq; done]).
  apply bool_decide_eq_false in Hlacks.
  destruct (s !! "Password") as [x|] eqn:Hx; [destruct Hlacks; eauto|].
  simpl. eexists _, _. split; [reflexivity|]. split; intros; simplify_eq; done.
Qed.

Lemma pre_findOneAndUpdate_needs_Password_witness :
  exists e w',
    pre_findOneAndUpdate sample_Digest (VObject {[ "Name" := VString "Ada L." ]}) sample_World
    = (Throw e, w') /\
    e = TypeError "Cannot read property 'Password' of undefined".
Proof.
  destruct (pre_findOneAndUpdate_needs_Password sample_Digest
              (VObject {[ "Name" := VString "Ada L." ]}) sample_World)
    as (e & w' & Hrun & Hmissing & _); [vm_compute; reflexivity|].
  exists e, w'. split; [exact Hrun|].
  apply (Hmissing {[ "Name" := VString "Ada L." ]}); [reflexivity|].
  vm_compute. reflexivity.
Defined.

(** ** Remember tokens *)

Section RememberFacts.

Variable Alphabet : list ascii.

(** The world a call of [SetRemember] on [this] leaves, by the outcome of
    its write. *)
Lemma SetRemember_run (this : Account) (Response : ServerResponse) (w : World) :
  SetRemember Alphabet this Response w
  = (Ok (cookie "Remember" (next_token Alphabet w) Remember_options Response),
     match Faults w with
     | Some e :: rest =>
         set_Log (Log w ++ [("DBError", e)]) (set_Faults rest (set_Drawn (Drawn w + 30) w))
     | _ =>
         set_Accounts
           (alter (set_Remember (Some (next_token Alphabet w))) (_id this) (Accounts w))
           (set_Faults (tail (Faults w)) (set_Drawn (Drawn w + 30) w))
     end).
Proof.
  unfold SetRemember, bind, Unique.String, random_chars, updateOne. simpl.
  by destruct (Faults w) as [|[e|] rest].
Qed.

Lemma length_next_token (w : World) : String.length (next_token Alphabet w) = 30%nat.
Proof. apply length_draw. Qed.

End RememberFacts.

Lemma findOne_Some (token : string) (w : World) (k : N) (a : Account) :
  Remember.findOne token w = Some (k, a) ->
  Accounts w !! k = Some a /\ Remember a = Some token.
Proof.
  unfold Remember.findOne. intros Hfind.
  apply find_some in Hfind as [Hin Hmatch].
  split.
  - apply elem_of_map_to_list. by apply list_elem_of_In.
  - by apply bool_decide_eq_true in Hmatch.
Qed.

Lemma findOne_None (token : string) (w : World) :
  (forall k a, Accounts w !! k = Some a -> Remember a <> Some token) ->
  Remember.findOne token w = None.
Proof.
  intros Hnone. destruct (Remember.findOne token w) as [[k a]|] eqn:Hfind; [|done].
  apply findOne_Some in Hfind as [Hk Ha]. by destruct (Hnone k a).
Qed.


(** C3. Every call of [SetRemember] returns, having drawn a token of 30
    characters from outputs of the random source not drawn before, and
    having queued on the response a cookie named Remember that holds the
    token, with httpOnly and signed set and a maxAge of 2592000000 ms. *)
Theorem SetRemember_sets_cookie (Alphabet : list ascii) (this : Account)
    (Response : ServerResponse) (w : World) :
  exists Response' w',
    SetRemember Alphabet this Response w = (Ok Response', w') /\
    cookies Response'
    = cookies Response
      ++ [("Remember", next_token Alphabet w,
           {| maxAge := Some 2592000000%Z; httpOnly := true; signed := true |})] /\
    String.length (next_token Alphabet w) = 30%nat /\
    next_token Alphabet w = draw Alphabet (Entropy w) (Drawn w) 30 /\
    Drawn w' = (Drawn w + 30)%nat.
Proof.
  eexists _, _. split; [apply SetRemember_run|].
  split; [reflexivity|]. split; [apply length_next_token|]. split; [reflexivity|].
  by destruct (Faults w) as [|[e|] rest].
Qed.

(** C6. When the write of the token fails, [SetRemember] still returns
    normally with the cookie queued on the response; the failure goes to
    the log under DBError and the stored accounts are left as they were. *)
Theorem SetRemember_write_failure_is_logged (Alphabet : list ascii) (this : Account)
    (Response : ServerResponse) (w : World) (e : string) (rest : list (option string)) :
  Faults w = Some e :: rest ->
  exists w',
    SetRemember Alphabet this Response w
    = (Ok (cookie "Remember" (next_token Alphabet w) Remember_options Response), w') /\
    Log w' = Log w ++ [("DBError", e)] /\
    Accounts w' = Accounts w.
Proof.
  intros Hfault. eexists. split; [apply SetRemember_run|].
  by rewrite Hfault.
Qed.

Lemma SetRemember_write_failure_is_logged_witness :
  exists w',
    SetRemember sample_Alphabet sample_Account sample_Response
      (set_Faults [Some "MongoNetworkError"] sample_World)
    = (Ok {| cookies := [("Remember", "DLTahpw5CKSZgov4BJRYfnu3AHQXem", Remember_options)] |},
       w') /\
    Log w' = [("DBError", "MongoNetworkError")] /\
    Accounts w' = {[ 7%N := sample_Stored ]}.
Proof.
  apply (SetRemember_write_failure_is_logged sample_Alphabet sample_Account sample_Response
           (set_Faults [Some "MongoNetworkError"] sample_World) "MongoNetworkError" []).
  reflexivity.
Defined.

Lemma Handle_run (Request : IncomingMessage) (token : string) (w : World) :
  user Request = None ->
  signedCookies_Remember Request = Signed token ->
  Remember.Handle Request w
  = (Ok match Remember.findOne token w with
        | Some account => Remember.login account Request
        | None => Request
        end, w).
Proof.
  intros Huser Hcookie. unfold Remember.Handle. rewrite Huser, Hcookie.
  unfold bind, gets. by destruct (Remember.findOne token w).
Qed.





(** ** The remember-me middleware *)

(** C5. A request without an active session whose remember cookie has an
    invalid signature, or a value that equals no stored token, goes on
    without a user: the middleware returns normally and changes neither
    the request nor the world. *)
Theorem Handle_unmatched_cookie_is_anonymous (Request : IncomingMessage) (w : World) :
  user Request = None ->
  (signedCookies_Remember Request = Forged \/
   exists token,
     signedCookies_Remember Request = Signed token /\
     forall k a, Accounts w !! k = Some a -> Remember a <> Some token) ->
  exists Request',
    Remember.Handle Request w = (Ok Request', w) /\ user Request' = None.
Proof.
  intros Huser [Hforged|(token & Hcookie & Hnone)].
  - exists Request. split; [|done]. unfold Remember.Handle. by rewrite Huser, Hforged.
  - exists Request. split; [|done].
    rewrite (Handle_run Request token w Huser Hcookie).
    by rewrite findOne_None.
Qed.

Lemma Handle_unmatched_cookie_is_anonymous_witness :
  exists Request',
    Remember.Handle {| user := None; signedCookies_Remember := Signed "stale" |}
      sample_World
    = (Ok Request', sample_World) /\ user Request' = None.
Proof.
  apply Handle_unmatched_cookie_is_anonymous; [reflexivity|].
  right. exists "stale". split; [reflexivity|].
  intros k a Hk. unfold sample_World in Hk. simpl in Hk.
  apply lookup_singleton_Some in Hk as [_ <-]. discriminate.
Defined.

(** ** The session cookie *)

(** The configured expiry is an instant fixed when the server starts: six
    hours after the start, whenever a session is created. *)
Lemma session_cookie_expires_at (env : gmap string string) (now created : Z) :
  Server.session_cookie_expires (Server.session_options env now) created
  = (now + Server.SIX_HOURS)%Z.
Proof. reflexivity. Qed.

Lemma session_cookie_lifetime_shrinks (env : gmap string string) (now created : Z) :
  Server.session_cookie_lifetime (Server.session_options env now) created
  = (Server.SIX_HOURS - (created - now))%Z.
Proof.
  unfold Server.session_cookie_lifetime. rewrite session_cookie_expires_at. lia.
Qed.

(** C7, at a session created one hour after the server started: its cookie
    expires five hours after its creation, not six. *)
Theorem session_cookie_created_later_expires_early :
  Server.session_cookie_lifetime (Server.session_options ∅ 0) 3600000 = 18000000%Z /\
  Server.session_cookie_lifetime (Server.session_options ∅ 0) 3600000 <> Server.SIX_HOURS.
Proof. split; [reflexivity|discriminate]. Qed.

(** ** Roles *)

(** C10. [IsVip] is true of every account. *)
Theorem IsVip_always (this : Account) : IsVip this = true.
Proof. reflexivity. Qed.

(** * Further properties of the model *)

(** ** Purchases and roles *)

Lemma indexOf_from_not_In (from : Z) (x : N) (l : list N) :
  ~ In x l -> indexOf_from from x l = (-1)%Z.
Proof.
  revert from. induction l as [|y l IH]; intros from Hnot; simpl; [done|].
  destruct (N.eqb_spec x y) as [->|Hne].
  - destruct Hnot. by left.
  - apply IH. intros Hin. apply Hnot. by right.
Qed.

Lemma indexOf_from_In (from : Z) (x : N) (l : list N) :
  In x l -> (from <= indexOf_from from x l)%Z.
Proof.
  revert from. induction l as [|y l IH]; intros from Hin; simpl; [done|].
  destruct (N.eqb_spec x y) as [->|Hne]; [lia|].
  destruct Hin as [->|Hin]; [done|].
  specialize (IH (from + 1)%Z Hin). lia.
Qed.

Lemma indexOf_found (x : N) (l : list N) :
  (indexOf x l >? -1)%Z = true <-> In x l.
Proof.
  unfold indexOf. split.
  - intros Hgt. destruct (in_dec N.eq_dec x l) as [Hin|Hnot]; [done|].
    rewrite (indexOf_from_not_In 0 x l Hnot) in Hgt. discriminate.
  - intros Hin. pose proof (indexOf_from_In 0 x l Hin). apply Z.gtb_lt. lia.
Qed.

(** X1. [IsPurchased(ID)] is true exactly when ID is among the account's
    purchases; in particular it is false of every ID when there are none. *)
Theorem IsPurchased_iff (this : Account) (ID : N) :
  IsPurchased this ID = true <-> In ID (Purchase this).
Proof.
  unfold IsPurchased, indexOf. split.
  - intros Hyes. destruct (in_dec N.eq_dec ID (Purchase this)) as [Hin|Hnot]; [done|].
    rewrite (indexOf_from_not_In 0 _ _ Hnot) in Hyes. discriminate.
  - intros Hin. pose proof (indexOf_from_In 0 _ _ Hin) as Hge.
    apply negb_true_iff, Z.eqb_neq. lia.
Qed.

Lemma HasRole_filter (this : Account) (Wanted : list N) :
  HasRole this Wanted = true <->
  List.filter (fun Role => (indexOf Role (Roles this) >? -1)%Z) Wanted <> [].
Proof.
  unfold HasRole. simpl.
  destruct (List.filter _ Wanted) as [|r rs]; simpl; split; try done.
Qed.

Lemma HasRole_iff_common (this : Account) (Wanted : list N) :
  HasRole this Wanted = true <-> exists Role, In Role Wanted /\ In Role (Roles this).
Proof.
  rewrite HasRole_filter. split.
  - intros Hne.
    destruct (List.filter _ Wanted) as [|r rs] eqn:Hf; [done|].
    assert (In r (List.filter (fun Role => (indexOf Role (Roles this) >? -1)%Z) Wanted))
      as Hin by (rewrite Hf; by left).
    apply filter_In in Hin as [Hw Hfound]. exists r. split; [done|].
    by apply indexOf_found.
  - intros (r & Hw & Hr) Hempty.
    assert (In r (List.filter (fun Role => (indexOf Role (Roles this) >? -1)%Z) Wanted))
      as Hin by (apply filter_In; split; [done|by apply indexOf_found]).
    by rewrite Hempty in Hin.
Qed.

(** X2. [HasRole(Roles)] is true exactly when at least one of the roles
    asked for is among the account's roles: any of them, not all. *)
Theorem HasRole_iff (this : Account) (Wanted : list N) :
  HasRole this Wanted = true <-> exists Role, In Role Wanted /\ In Role (Roles this).
Proof. apply HasRole_iff_common. Qed.

(** X3. Asking for no role at all is refused, and so is every question
    put to an account that has no role. *)
Theorem HasRole_empty (this : Account) (Wanted : list N) :
  Wanted = [] \/ Roles this = [] -> HasRole this Wanted = false.
Proof.
  intros Hnone. apply not_true_is_false. rewrite HasRole_iff_common.
  intros (r & Hw & Hr). destruct Hnone as [Hnone|Hnone]; rewrite Hnone in *; done.
Qed.

Lemma HasRole_empty_witness : HasRole sample_Account [1%N; 2%N] = false.
Proof. apply HasRole_empty. right. reflexivity. Defined.

(** X4. Asking for two lists of roles at once is asking for one or the
    other. *)
Theorem HasRole_app (this : Account) (Wanted More : list N) :
  HasRole this (Wanted ++ More) = HasRole this Wanted || HasRole this More.
Proof.
  unfold HasRole. simpl. rewrite List.filter_app, List.length_app.
  destruct (List.filter _ Wanted), (List.filter _ More); reflexivity.
Qed.

(** ** More on passwords *)

Lemma append_same_length (s1 s2 t1 t2 : string) :
  String.length s1 = String.length s2 -> s1 +:+ t1 = s2 +:+ t2 -> s1 = s2.
Proof.
  revert s2. induction s1 as [|c s1 IH]; intros [|d s2] Hlen Heq; simpl in *;
    try done.
  injection Heq as -> Heq. f_equal. apply IH; [lia|done].
Qed.

(** X5. The save hook changes the Password field of the document and
    nothing else: the other fields are kept, and neither the stored
    accounts nor the log are touched. *)
Theorem pre_save_changes_only_Password (Digest : string -> string -> string)
    (this : Account) (w : World) :
  exists doc w',
    pre_save Digest this w = (Ok doc, w') /\
    (_id doc, Purchase doc, Roles doc, Name doc, Admin doc, Email doc, Remember doc)
    = (_id this, Purchase this, Roles this, Name this, Admin this, Email this, Remember this) /\
    Accounts w' = Accounts w /\ Faults w' = Faults w /\ Log w' = Log w.
Proof. eexists _, _. split; [apply pre_save_run|]. done. Qed.

(** X6. Salting: when the salts drawn for two saves differ, the hashes
    stored differ, whatever the two passwords are, equal ones included. *)
Theorem pre_save_salts_tell_hashes_apart (Digest : string -> string -> string)
    (this that : Account) (w w' : World) :
  bcrypt.next_salt 15 w <> bcrypt.next_salt 15 w' ->
  exists doc doc' w1 w1',
    pre_save Digest this w = (Ok doc, w1) /\
    pre_save Digest that w' = (Ok doc', w1') /\
    Password doc <> Password doc'.
Proof.
  intros Hsalts. eexists _, _, _, _.
  split; [apply pre_save_run|]. split; [apply pre_save_run|].
  simpl. unfold bcrypt.encrypt_sync. intros Heq. apply Hsalts.
  eapply append_same_length; [|exact Heq]. by rewrite !length_next_salt.
Qed.

Lemma pre_save_salts_tell_hashes_apart_witness :
  exists doc doc' w1 w1',
    pre_save sample_Digest sample_Account sample_World = (Ok doc, w1) /\
    pre_save sample_Digest sample_Account (set_Drawn 22 sample_World) = (Ok doc', w1') /\
    Password doc <> Password doc'.
Proof.
  apply pre_save_salts_tell_hashes_apart. vm_compute. discriminate.
Defined.

(** X7. [ComparePassword] answers exactly when the candidate is a string;
    on [undefined], [null], a number, a boolean or an object it throws. *)
Theorem ComparePassword_answers_strings_only (Digest : string -> string -> string)
    (this : Account) (Given : Value) :
  (exists answer, ComparePassword Digest this Given = Ok answer) <->
  (exists candidate, Given = VString candidate).
Proof.
  unfold ComparePassword. split.
  - intros [answer Hanswer]. destruct Given; simpl in Hanswer; try discriminate.
    by eexists.
  - intros [candidate ->]. simpl. by eexists.
Qed.

(** X8. The update hook lets an update through exactly when the update is
    an object whose [$set] is an object that holds a string under
    [Password]. *)
Theorem pre_findOneAndUpdate_passes_iff (Digest : string -> string -> string)
    (update : Value) (w : World) :
  (exists update' w', pre_findOneAndUpdate Digest update w = (Ok update', w')) <->
  (exists u s P,
     update = VObject u /\ u !! "$set" = Some (VObject s) /\
     s !! "Password" = Some (VString P)).
Proof.
  unfold pre_findOneAndUpdate, bind, lift. split.
  - intros (update' & w' & Hrun).
    destruct update as [| | | | |u]; simpl in Hrun; try discriminate.
    destruct (u !! "$set") as [[| | | | |s]|] eqn:Hset; simpl in Hrun; try discriminate.
    destruct (s !! "Password") as [[| | | | |]|] eqn:Hpw; simpl in Hrun; try discriminate.
    by eexists _, _, _.
  - intros (u & s & P & -> & Hset & Hpw). simpl.
    rewrite Hset. simpl. rewrite Hpw. simpl. by eexists _, _.
Qed.

(** X9. Round trip through the update hook: an account that holds the
    value the hook left under [$set.Password] accepts the password the
    update had set. *)
Theorem pre_findOneAndUpdate_then_ComparePassword (Digest : string -> string -> string)
    (other rest : gmap string Value) (P : string) (this : Account) (w : World) :
  exists update' w' set' hash,
    pre_findOneAndUpdate Digest
      (VObject (<["$set" := VObject (<["Password" := VString P]> rest)]> other)) w
    = (Ok update', w') /\
    get update' "$set" = Ok set' /\
    get set' "Password" = Ok (VString hash) /\
    ComparePassword Digest (set_Password hash this) (VString P) = Ok true.
Proof.
  eexists _, _, _, _. split; [apply pre_findOneAndUpdate_run|].
  split; [simpl; by rewrite lookup_insert_eq|].
  split; [simpl; by rewrite lookup_insert_eq|].
  rewrite ComparePassword_hashed by apply length_next_salt.
  by rewrite bool_decide_eq_true_2.
Qed.

(** ** More on remember tokens *)

Lemma SetRemember_Accounts (Alphabet : list ascii) (this : Account)
    (Response : ServerResponse) (w : World) :
  exists Response' w',
    SetRemember Alphabet this Response w = (Ok Response', w') /\
    (Accounts w' = Accounts w \/
     Accounts w'
     = alter (set_Remember (Some (next_token Alphabet w))) (_id this) (Accounts w)).
Proof.
  eexists _, _. split; [apply SetRemember_run|].
  destruct (Faults w) as [|[e|] rest]; simpl; auto.
Qed.

(** X10. Whatever the outcome of its write, [SetRemember] leaves every
    account other than the one with the document's [_id] as it was, adds
    and removes none, and on that one keeps the declared paths [_id],
    Purchase, Roles, Name, Admin, Email and Password; its Remember is
    either as before or the new token. *)
Theorem SetRemember_keeps_declared_paths (Alphabet : list ascii) (this : Account)
    (Response : ServerResponse) (w : World) :
  exists Response' w',
    SetRemember Alphabet this Response w = (Ok Response', w') /\
    (forall k, k <> _id this -> Accounts w' !! k = Accounts w !! k) /\
    dom (Accounts w') = dom (Accounts w) /\
    (forall stored, Accounts w !! _id this = Some stored ->
       exists stored',
         Accounts w' !! _id this = Some stored' /\
         (_id stored', Purchase stored', Roles stored', Name stored', Admin stored',
          Email stored', Password stored')
         = (_id stored, Purchase stored, Roles stored, Name stored, Admin stored,
            Email stored, Password stored) /\
         (Remember stored' = Remember stored \/
          Remember stored' = Some (next_token Alphabet w))).
Proof.
  destruct (SetRemember_Accounts Alphabet this Response w)
    as (Response' & w' & Hrun & [Hsame|Haltered]); exists Response', w'.
  - rewrite Hsame. split; [exact Hrun|]. split; [done|]. split; [done|].
    intros stored Hstored. exists stored. auto.
  - rewrite Haltered. split; [exact Hrun|]. split; [|split].
    + intros k Hne. by rewrite lookup_alter_ne.
    + apply dom_alter_L.
    + intros stored Hstored.
      exists (set_Remember (Some (next_token Alphabet w)) stored).
      rewrite lookup_alter_eq, Hstored. auto.
Qed.

Lemma SetRemember_keeps_declared_paths_witness :
  exists Response' w' stored',
    SetRemember sample_Alphabet sample_Account sample_Response sample_World
    = (Ok Response', w') /\
    Accounts w' !! 7%N = Some stored' /\
    Password stored' = Password sample_Stored /\
    Email stored' = "ada@example.org" /\
    Remember stored' = Some "DLTahpw5CKSZgov4BJRYfnu3AHQXem".
Proof.
  destruct (SetRemember_keeps_declared_paths sample_Alphabet sample_Account
              sample_Response sample_World)
    as (Response' & w' & Hrun & _ & _ & Htarget).
  destruct (Htarget sample_Stored eq_refl) as (stored' & Hstored' & Hpaths & _).
  exists Response', w', stored'. split; [exact Hrun|]. split; [exact Hstored'|].
  injection Hpaths as _ _ _ _ _ HEmail HPassword.
  split; [exact HPassword|]. split; [exact HEmail|].
  rewrite SetRemember_run in Hrun. injection Hrun as _ <-.
  simpl in Hstored'. rewrite lookup_alter_eq in Hstored'.
  rewrite lookup_singleton_eq in Hstored'. by injection Hstored' as <-.
Defined.

(** X11. When no stored account has the document's [_id], [SetRemember]
    leaves the store as it was, whether its write is refused or not, and
    still queues the cookie with the new token. *)
Theorem SetRemember_without_stored_account (Alphabet : list ascii) (this : Account)
    (Response : ServerResponse) (w : World) :
  Accounts w !! _id this = None ->
  exists w',
    SetRemember Alphabet this Response w
    = (Ok (cookie "Remember" (next_token Alphabet w) Remember_options Response), w') /\
    Accounts w' = Accounts w.
Proof.
  intros Habsent. eexists. split; [apply SetRemember_run|].
  destruct (Faults w) as [|[e|] rest]; simpl; try done.
  - apply map_eq. intros k. destruct (decide (k = _id this)) as [->|Hne].
    + by rewrite lookup_alter_eq, Habsent.
    + by rewrite lookup_alter_ne.
  - apply map_eq. intros k. destruct (decide (k = _id this)) as [->|Hne].
    + by rewrite lookup_alter_eq, Habsent.
    + by rewrite lookup_alter_ne.
Qed.

Lemma SetRemember_without_stored_account_witness :
  exists w',
    SetRemember sample_Alphabet
      {| _id := 8%N; Purchase := []; Roles := []; Name := "Bob"; Admin := false;
         Email := "bob@example.org"; Password := "Secret2"; Remember := None |}
      sample_Response sample_World
    = (Ok {| cookies := [("Remember", "DLTahpw5CKSZgov4BJRYfnu3AHQXem", Remember_options)] |},
       w') /\
    Accounts w' = {[ 7%N := sample_Stored ]}.
Proof.
  apply (SetRemember_without_stored_account sample_Alphabet _ sample_Response sample_World).
  vm_compute. reflexivity.
Defined.

(** X12. Issuing a remember token does not touch passwords: every stored
    account is still stored afterwards, and [ComparePassword] on it
    answers as on the one stored before. *)
Theorem SetRemember_keeps_passwords (Alphabet : list ascii) (this : Account)
    (Response : ServerResponse) (w : World) (k : N) (stored : Account) :
  Accounts w !! k = Some stored ->
  exists Response' w' stored',
    SetRemember Alphabet this Response w = (Ok Response', w') /\
    Accounts w' !! k = Some stored' /\
    forall Digest Given,
      ComparePassword Digest stored' Given = ComparePassword Digest stored Given.
Proof.
  intros Hstored.
  destruct (SetRemember_Accounts Alphabet this Response w)
    as (Response' & w' & Hrun & [Hsame|Haltered]).
  - exists Response', w', stored. rewrite Hsame. done.
  - destruct (decide (k = _id this)) as [->|Hne].
    + exists Response', w', (set_Remember (Some (next_token Alphabet w)) stored).
      split; [done|]. split; [|done].
      by rewrite Haltered, lookup_alter_eq, Hstored.
    + exists Response', w', stored. split; [done|]. split; [|done].
      by rewrite Haltered, lookup_alter_ne.
Qed.

Lemma SetRemember_keeps_passwords_witness :
  exists Response' w' stored',
    SetRemember sample_Alphabet sample_Account sample_Response sample_World
    = (Ok Response', w') /\
    Accounts w' !! 7%N = Some stored' /\
    forall Digest Given,
      ComparePassword Digest stored' Given = ComparePassword Digest sample_Stored Given.
Proof.
  apply (SetRemember_keeps_passwords sample_Alphabet sample_Account sample_Response
           sample_World 7%N sample_Stored).
  reflexivity.
Defined.

(** ** The start-up configuration *)

Ltac lower_cases c :=
  destruct c as [[] [] [] [] [] [] [] []]; vm_compute;
  (split; [intros H; try discriminate H; auto
          |intros [H|H]; try discriminate H; reflexivity]).

Lemma lower_t (c : ascii) : Server.lower c = "t"%char <-> c = "t"%char \/ c = "T"%char.
Proof. lower_cases c. Qed.

Lemma lower_r (c : ascii) : Server.lower c = "r"%char <-> c = "r"%char \/ c = "R"%char.
Proof. lower_cases c. Qed.

Lemma lower_u (c : ascii) : Server.lower c = "u"%char <-> c = "u"%char \/ c = "U"%char.
Proof. lower_cases c. Qed.

Lemma lower_e (c : ascii) : Server.lower c = "e"%char <-> c = "e"%char \/ c = "E"%char.
Proof. lower_cases c. Qed.

(** X13. A flag of the environment is on exactly when its variable is set
    to the four letters of true, each in either case; any other value,
    the empty one and padded ones included, turns it off. *)
Theorem flag_on_iff (env : gmap string string) (k : string) :
  Server.flag env k = Ok true <->
  exists c1 c2 c3 c4,
    env !! k = Some (String c1 (String c2 (String c3 (String c4 EmptyString)))) /\
    (c1 = "t" \/ c1 = "T")%char /\ (c2 = "r" \/ c2 = "R")%char /\
    (c3 = "u" \/ c3 = "U")%char /\ (c4 = "e" \/ c4 = "E")%char.
Proof.
  unfold Server.flag. split.
  - destruct (env !! k) as [v|]; [|discriminate].
    intros [= Heq]. apply String.eqb_eq in Heq.
    destruct v as [|c1 [|c2 [|c3 [|c4 [|c5 v]]]]]; simpl in Heq; try discriminate.
    injection Heq as H1 H2 H3 H4.
    exists c1, c2, c3, c4. split; [done|].
    by rewrite <- lower_t, <- lower_r, <- lower_u, <- lower_e.
  - intros (c1 & c2 & c3 & c4 & -> & H1 & H2 & H3 & H4). f_equal.
    apply String.eqb_eq. simpl.
    apply lower_t in H1. apply lower_r in H2. apply lower_u in H3. apply lower_e in H4.
    by rewrite H1, H2, H3, H4.
Qed.

(** X14. Reading the debug flag, and building the connection string, throw
    exactly when the variable of their flag is unset; no other unset
    variable stops the connection string from being built. *)
Theorem startup_throws_iff_flag_unset (env : gmap string string) :
  ((exists e, Server.debug env = Throw e) <-> env !! "Debug" = None) /\
  ((exists e, Server.connection_uri env = Throw e)
   <-> env !! "DATABASE_USE_CREDENTIALS" = None).
Proof.
  unfold Server.debug, Server.connection_uri, Server.flag. split.
  - destruct (env !! "Debug"); split; try done; [by intros [e ?]|by eexists].
  - destruct (env !! "DATABASE_USE_CREDENTIALS"); split; try done;
      [by intros [e ?]|by eexists].
Qed.

Lemma flag_insert_other (env : gmap string string) (k k' v : string) :
  k' <> k -> Server.flag (<[k' := v]> env) k = Server.flag env k.
Proof. intros Hne. unfold Server.flag. by rewrite lookup_insert_ne. Qed.

Lemma interpolate_insert_other (env : gmap string string) (k k' v : string) :
  k' <> k -> Server.interpolate (<[k' := v]> env) k = Server.interpolate env k.
Proof. intros Hne. unfold Server.interpolate. by rewrite lookup_insert_ne. Qed.

(** X15. With the credentials flag off, the connection string does not
    depend on the user name or the password of the environment. *)
Theorem connection_uri_without_credentials (env : gmap string string) (u p : string) :
  Server.flag env "DATABASE_USE_CREDENTIALS" = Ok false ->
  Server.connection_uri (<["DATABASE_USERNAME" := u]> (<["DATABASE_PASSWORD" := p]> env))
  = Server.connection_uri env /\
  Server.connection_uri env
  = Ok ("mongodb://" +:+ Server.interpolate env "DATABASE_HOST" +:+ ":"
        +:+ Server.interpolate env "DATABASE_PORT" +:+ "/"
        +:+ Server.interpolate env "DATABASE_NAME").
Proof.
  intros Hoff. unfold Server.connection_uri.
  rewrite !flag_insert_other by done. rewrite Hoff.
  by rewrite !interpolate_insert_other.
Qed.

Lemma connection_uri_without_credentials_witness :
  let env : gmap string string :=
    {[ "DATABASE_USE_CREDENTIALS" := "no"; "DATABASE_HOST" := "db";
       "DATABASE_PORT" := "27017"; "DATABASE_NAME" := "site" ]} in
  Server.connection_uri (<["DATABASE_USERNAME" := "root"]> (<["DATABASE_PASSWORD" := "hunter2"]> env))
  = Server.connection_uri env /\
  Server.connection_uri env
  = Ok ("mongodb://" +:+ Server.interpolate env "DATABASE_HOST" +:+ ":"
        +:+ Server.interpolate env "DATABASE_PORT" +:+ "/"
        +:+ Server.interpolate env "DATABASE_NAME").
Proof.
  intros env. apply (connection_uri_without_credentials env "root" "hunter2").
  vm_compute. reflexivity.
Defined.

(** X16. With the credentials flag on, an unset user name or password is
    not refused: the text undefined goes into the connection string in its
    place. *)
Theorem connection_uri_unset_credentials (env : gmap string string) :
  Server.flag env "DATABASE_USE_CREDENTIALS" = Ok true ->
  env !! "DATABASE_USERNAME" = None ->
  env !! "DATABASE_PASSWORD" = None ->
  Server.connection_uri env
  = Ok ("mongodb://undefined:undefined@" +:+ Server.interpolate env "DATABASE_HOST" +:+ ":"
        +:+ Server.interpolate env "DATABASE_PORT" +:+ "/"
        +:+ Server.interpolate env "DATABASE_NAME").
Proof.
  intros Hon Huser Hpass. unfold Server.connection_uri. rewrite Hon.
  unfold Server.interpolate at 1 2. by rewrite Huser, Hpass.
Qed.

Lemma connection_uri_unset_credentials_witness :
  Server.connection_uri
    {[ "DATABASE_USE_CREDENTIALS" := "True"; "DATABASE_HOST" := "db";
       "DATABASE_PORT" := "27017"; "DATABASE_NAME" := "site" ]}
  = Ok "mongodb://undefined:undefined@db:27017/site".
Proof.
  rewrite connection_uri_unset_credentials; [vm_compute; reflexivity|..];
    vm_compute; reflexivity.
Defined.

(** X17. Whenever the server started and whenever a session is created,
    its cookie lasts six hours less the time the server had been up: six
    hours only for a session created at the very start, and no time at all
    once the server has been up for six hours. *)
Theorem session_cookie_lifetime_by_uptime (env : gmap string string) (now created : Z) :
  Server.session_cookie_lifetime (Server.session_options env now) created
  = (Server.SIX_HOURS - (created - now))%Z /\
  (Server.session_cookie_lifetime (Server.session_options env now) created
   = Server.SIX_HOURS <-> created = now) /\
  ((now + Server.SIX_HOURS <= created)%Z <->
   (Server.session_cookie_lifetime (Server.session_options env now) created <= 0)%Z).
Proof.
  rewrite session_cookie_lifetime_shrinks. repeat split; lia.
Qed.
